(** * Ohm's law calculator: [physics/ohms_law.py]

    A shallow embedding of the function [ohms_law] and of the fragment of
    Python it runs on, followed by the properties of its specification. *)

From Stdlib Require Import ZArith List.
From Stdlib Require Import PrimFloat SpecFloat FloatOps FloatAxioms.
From Stdlib Require Uint63 FloatLemmas.
From stdpp Require Import gmap strings.

Local Open Scope string_scope.
Local Open Scope Z_scope.

(** ** The Python fragment *)

Module Py.

(** The arguments of [ohms_law] are annotated [float]; the docstring calls
    it with [int] literals, and an unknown parameter is [None].  The
    signature declares no default, so every call binds all three
    parameters and a parameter that is not provided is passed as [None]. *)
Inductive pyval : Type :=
| PyNone
| PyInt (z : Z)
| PyFloat (f : float).

(** The exceptions that can leave the function.  [ValueError] carries the
    message given by the source; the others are raised by the
    interpreter's operators. *)
Inductive exn : Type :=
| ValueError (msg : string)
| TypeError
| ZeroDivisionError
| OverflowError.

(** An evaluation either returns a value or raises. *)
Inductive outcome (A : Type) : Type :=
| Return (a : A)
| Raise (e : exn).
Arguments Return {A} a.
Arguments Raise {A} e.

Definition bind {A B : Type} (m : outcome A) (k : A -> outcome B) : outcome B :=
  match m with
  | Return a => k a
  | Raise e => Raise e
  end.

(** What the function hands back: a [dict] or [None]. *)
Inductive retval : Type :=
| RetNone
| RetDict (d : gmap string pyval).

(** [x is not None] *)
Definition is_not_None (x : pyval) : bool :=
  match x with
  | PyNone => false
  | _ => true
  end.

(** [x is None] *)
Definition is_None (x : pyval) : bool := negb (is_not_None x).

(** [sum(...)] over booleans: [True] counts 1 and [False] counts 0. *)
Definition sum (bs : list bool) : Z :=
  fold_left (fun acc (b : bool) => acc + (if b then 1 else 0)) bs 0.

(** [x < 0].  Ordering [None] against a number is not supported and
    raises [TypeError]; a NaN is not below zero. *)
Definition lt0 (x : pyval) : outcome bool :=
  match x with
  | PyNone => Raise TypeError
  | PyInt z => Return (z <? 0)
  | PyFloat f => Return (PrimFloat.ltb f PrimFloat.zero)
  end.

(** A Python [int] as an unrounded binary number. *)
Definition int_SF (z : Z) : spec_float :=
  match z with
  | Z0 => S754_zero false
  | Zpos p => S754_finite false p 0
  | Zneg p => S754_finite true p 0
  end.

(** The result of a rounding to binary64, [OverflowError] when it is out
    of range. *)
Definition rounded (sf : spec_float) : outcome float :=
  match sf with
  | S754_infinity _ => Raise OverflowError
  | _ => Return (SF2Prim sf)
  end.

(** Conversion of an operand to a C double: an [int] is rounded to the
    nearest float, ties to even. *)
Definition as_double (x : pyval) : outcome float :=
  match x with
  | PyNone => Raise TypeError
  | PyInt z => rounded (binary_normalize prec emax z 0 false)
  | PyFloat f => Return f
  end.

(** [x * y] *)
Definition mul (x y : pyval) : outcome pyval :=
  match x, y with
  | PyNone, _ | _, PyNone => Raise TypeError
  | PyInt a, PyInt b => Return (PyInt (a * b))
  | _, _ =>
      bind (as_double x) (fun a =>
      bind (as_double y) (fun b =>
      Return (PyFloat (PrimFloat.mul a b))))
  end.

(** [x / y], true division: the quotient of two [int]s is the correctly
    rounded float; a zero divisor raises [ZeroDivisionError]. *)
Definition truediv (x y : pyval) : outcome pyval :=
  match x, y with
  | PyNone, _ | _, PyNone => Raise TypeError
  | PyInt a, PyInt b =>
      if b =? 0 then Raise ZeroDivisionError
      else bind (rounded (SFdiv prec emax (int_SF a) (int_SF b)))
                (fun q => Return (PyFloat q))
  | _, _ =>
      bind (as_double x) (fun a =>
      bind (as_double y) (fun b =>
      if PrimFloat.eqb b PrimFloat.zero then Raise ZeroDivisionError
      else Return (PyFloat (PrimFloat.div a b))))
  end.

End Py.

Import Py.

Notation "'let!' x ':=' m 'in' k" := (bind m (fun x => k))
  (at level 10, x name, m at level 100, k at level 200).

(** ** The function *)

(** The two kinds of [ValueError] raised by the source, under the names the
    specification gives them. *)
Definition InvalidArgumentCount : exn :=
  ValueError "Exactly two parameters (voltage, current, or resistance) must be provided.".

Inductive field : Type := Current | Voltage | Resistance.

Definition NegativeValue (f : field) : exn :=
  match f with
  | Current => ValueError "Current cannot be negative."
  | Voltage => ValueError "Voltage cannot be negative."
  | Resistance => ValueError "Resistance cannot be negative."
  end.

(** The number of parameters that are provided (line 54). *)
Definition provided (voltage current resistance : pyval) : Z :=
  sum (map is_not_None [voltage; current; resistance]).

(** Lines 59-65: the three comparisons against zero, in source order. *)
Definition check_negative (voltage current resistance : pyval) : outcome unit :=
  let! c := lt0 current in
  if c then Raise (NegativeValue Current) else
  let! v := lt0 voltage in
  if v then Raise (NegativeValue Voltage) else
  let! r := lt0 resistance in
  if r then Raise (NegativeValue Resistance) else
  Return tt.

(** Lines 67-79: the missing parameter is computed by the first branch whose
    test holds. *)
Definition calculate (voltage current resistance : pyval) : outcome retval :=
  if is_None current then
    let! current' := truediv voltage resistance in
    Return (RetDict {[ "current" := current' ]})
  else if is_None voltage then
    let! voltage' := mul current resistance in
    Return (RetDict {[ "voltage" := voltage' ]})
  else if is_None resistance then
    let! resistance' := truediv voltage current in
    Return (RetDict {[ "resistance" := resistance' ]})
  else
    Return RetNone.

(** [ohms_law(voltage, current, resistance)] *)
Definition ohms_law (voltage current resistance : pyval) : outcome retval :=
  if negb (provided voltage current resistance =? 2) then
    Raise InvalidArgumentCount
  else
    let! _ := check_negative voltage current resistance in
    calculate voltage current resistance.

(** ** The call *)

(** Line 25: the parameters in the order of the signature.  None of them has
    a default value. *)
Definition parameters : list string := ["voltage"; "current"; "resistance"].

(** The value a call binds to the parameter at position [k]: the positional
    argument at [k], or else the keyword argument of that name.  A parameter
    that is given both ways, or not at all, is a [TypeError]. *)
Definition bind_parameter (args : list pyval) (kwargs : gmap string pyval)
    (k : nat) (name : string) : outcome pyval :=
  match args !! k, kwargs !! name with
  | Some _, Some _ => Raise TypeError
  | Some x, None => Return x
  | None, Some x => Return x
  | None, None => Raise TypeError
  end.

(** A call of [ohms_law] with positional arguments [args] and keyword
    arguments [kwargs].  More positional arguments than parameters
    and a keyword that names no parameter are [TypeError]s as well; the body
    runs once the three parameters are bound. *)
Definition ohms_law_call (args : list pyval) (kwargs : gmap string pyval)
    : outcome retval :=
  if (length parameters <? length args)%nat then Raise TypeError
  else if negb (bool_decide (dom kwargs ⊆ list_to_set parameters)) then
    Raise TypeError
  else
    let! voltage := bind_parameter args kwargs 0 "voltage" in
    let! current := bind_parameter args kwargs 1 "current" in
    let! resistance := bind_parameter args kwargs 2 "resistance" in
    ohms_law voltage current resistance.

(** ** The body on the interpreter state *)

Module Exec.

(** The local variables of a call: the three parameters, which the body
    also assigns (lines 69, 72 and 75). *)
Record frame : Type :=
  Frame { voltage : pyval; current : pyval; resistance : pyval }.




(** What a running body can reach: its own frame and the variables of the
    module it lives in. *)
Record state : Type :=
  State { locals : frame; globals : gmap string pyval }.

(** A statement or expression runs on a state; it returns or raises, and
    leaves a state behind. *)
Definition exec (A : Type) : Type := state -> outcome A * state.



Definition bind {A B : Type} (m : exec A) (k : A -> exec B) : exec B :=
  fun s =>
    match m s with
    | (Return a, s') => k a s'
    | (Raise e, s') => (Raise e, s')
    end.




End Exec.

Notation "'do!' x ':=' m 'in' k" := (Exec.bind m (fun x => k))
  (at level 10, x name, m at level 100, k at level 200).






(** ** Predicates used by the statements *)

(** A parameter that is provided and below zero. *)
Definition negative (x : pyval) : bool :=
  match x with
  | PyNone => false
  | PyInt z => z <? 0
  | PyFloat f => PrimFloat.ltb f PrimFloat.zero
  end.

(** A divisor that is zero: the [int] 0, or a float equal to [0.0]. *)
Definition is_zero (x : pyval) : bool :=
  match x with
  | PyNone => false
  | PyInt z => z =? 0
  | PyFloat f => PrimFloat.eqb f PrimFloat.zero
  end.

(** Whether the keyword [name] is given, as a count. *)
Definition given (kwargs : gmap string pyval) (name : string) : nat :=
  match kwargs !! name with
  | Some _ => 1
  | None => 0
  end.

(** A binary number that is not below zero. *)
Definition SF_not_negative (x : spec_float) : Prop :=
  SFltb x (S754_zero false) = false.

(** An [int] too large for a float: its conversion overflows. *)
Definition too_large (x : pyval) : bool :=
  match x with
  | PyInt z =>
      match binary_normalize prec emax z 0 false with
      | S754_infinity _ => true
      | _ => false
      end
  | _ => false
  end.

Definition is_float (x : pyval) : bool :=
  match x with
  | PyFloat _ => true
  | _ => false
  end.

(** The error of a division of [x] by a zero [d]: the operands of a float
    division are converted first, so an [int] too large for a float fails
    before the divisor is looked at. *)
Definition zero_divisor_error (x d : pyval) : exn :=
  if too_large x && is_float d then OverflowError else ZeroDivisionError.

(** Exactly one of the three parameters is [None]. *)
Definition one_absent (voltage current resistance : pyval) : Prop :=
  (current = PyNone /\ voltage <> PyNone /\ resistance <> PyNone) \/
  (voltage = PyNone /\ current <> PyNone /\ resistance <> PyNone) \/
  (resistance = PyNone /\ voltage <> PyNone /\ current <> PyNone).

(** The computation block runs exactly one of its three computing branches:
    the tests are tried in source order, so a branch runs when its test is
    the first that holds. *)
Definition one_branch_taken (voltage current resistance : pyval) : Prop :=
  (current = PyNone /\
   calculate voltage current resistance =
     let! c := truediv voltage resistance in
     Return (RetDict {[ "current" := c ]})) \/
  (current <> PyNone /\ voltage = PyNone /\
   calculate voltage current resistance =
     let! c := mul current resistance in
     Return (RetDict {[ "voltage" := c ]})) \/
  (current <> PyNone /\ voltage <> PyNone /\ resistance = PyNone /\
   calculate voltage current resistance =
     let! c := truediv voltage current in
     Return (RetDict {[ "resistance" := c ]})).

(** A normal return of the computation block, when exactly one parameter is
    absent, is a dictionary with one key. *)
Definition one_key (x : retval) : Prop :=
  exists (k : string) (y : pyval),
    x = RetDict {[ k := y ]} /\ In k ["voltage"; "current"; "resistance"].

(** ** The docstring's example usages, with the unknown passed as [None] *)

Example usage_voltage :
  ohms_law PyNone (PyInt 2) (PyInt 4) = Raise TypeError.
Proof. reflexivity. Qed.

Example usage_resistance :
  ohms_law (PyInt 12) (PyInt 3) PyNone = Raise TypeError.
Proof. reflexivity. Qed.

Example usage_current :
  ohms_law (PyInt 9) PyNone (PyInt 3) = Raise TypeError.
Proof. reflexivity. Qed.

Example usage_all_three :
  ohms_law (PyInt 9) (PyInt 3) (PyInt 3) = Raise InvalidArgumentCount.
Proof. reflexivity. Qed.

Example usage_only_voltage :
  ohms_law (PyInt 9) PyNone PyNone = Raise InvalidArgumentCount.
Proof. reflexivity. Qed.

Example usage_none_at_all :
  ohms_law PyNone PyNone PyNone = Raise InvalidArgumentCount.
Proof. reflexivity. Qed.

Example usage_negative_voltage :
  ohms_law (PyInt (-5)) (PyInt 2) PyNone = Raise (NegativeValue Voltage).
Proof. reflexivity. Qed.

(** The computation block on its own gives the documented values. *)
Example calculate_voltage :
  calculate PyNone (PyInt 2) (PyInt 4) = Return (RetDict {[ "voltage" := PyInt 8 ]}).
Proof. reflexivity. Qed.

Example calculate_resistance :
  calculate (PyInt 12) (PyInt 3) PyNone = Return (RetDict {[ "resistance" := PyFloat 4 ]}).
Proof. reflexivity. Qed.

Example calculate_current :
  calculate (PyInt 9) PyNone (PyInt 3) = Return (RetDict {[ "current" := PyFloat 3 ]}).
Proof. reflexivity. Qed.

(** ** Shared facts about the two blocks *)

Ltac by_cases v i r :=
  destruct v, i, r; cbn in *; try discriminate; try congruence; auto.

Lemma provided_range v i r : 0 <= provided v i r <= 3.
Proof. by_cases v i r; lia. Qed.

Lemma provided_two_one_absent v i r :
  provided v i r = 2 <-> one_absent v i r.
Proof.
  unfold one_absent; split.
  - intros H; by_cases v i r; intuition congruence.
  - intros H; by_cases v i r; intuition congruence.
Qed.

Lemma lt0_provided x : x <> PyNone -> lt0 x = Return (negative x).
Proof. destruct x; [congruence | reflexivity | reflexivity]. Qed.

Lemma lt0_absent : lt0 PyNone = Raise TypeError.
Proof. reflexivity. Qed.

(** A float above zero is not below it. *)
Lemma float_positive_not_negative (f : float) :
  PrimFloat.ltb PrimFloat.zero f = true -> PrimFloat.ltb f PrimFloat.zero = false.
Proof.
  rewrite !ltb_spec.
  change (Prim2SF PrimFloat.zero) with (S754_zero false).
  destruct (Prim2SF f) as [s | s | | s m e]; cbn; try discriminate;
    destruct s; cbn; congruence.
Qed.

Lemma ohms_law_count_fails v i r :
  provided v i r <> 2 -> ohms_law v i r = Raise InvalidArgumentCount.
Proof.
  intros H. unfold ohms_law.
  destruct (Z.eqb_spec (provided v i r) 2); [contradiction | reflexivity].
Qed.

Lemma ohms_law_count_passes v i r :
  provided v i r = 2 ->
  ohms_law v i r =
    let! _ := check_negative v i r in calculate v i r.
Proof. intros H. unfold ohms_law. rewrite H. reflexivity. Qed.

(** The negativity block raises on every input that has an absent
    parameter: it compares all three. *)
Lemma check_negative_Return_inv v i r :
  check_negative v i r = Return tt ->
  v <> PyNone /\ i <> PyNone /\ r <> PyNone.
Proof.
  unfold check_negative.
  destruct i; cbn; try discriminate;
    (match goal with |- context [if ?b then _ else _] => destruct b end;
     [discriminate |]);
    (destruct v; cbn; try discriminate;
     (match goal with |- context [if ?b then _ else _] => destruct b end;
      [discriminate |]);
     (destruct r; cbn; try discriminate; intros _; repeat split; discriminate)).
Qed.

Lemma error_names_distinct f : InvalidArgumentCount <> NegativeValue f.
Proof. destruct f; discriminate. Qed.

Lemma NegativeValue_inj f g : NegativeValue f = NegativeValue g -> f = g.
Proof. destruct f, g; try reflexivity; discriminate. Qed.

(** The outcome of the function on every input that passes the count
    check: the first comparison that meets [None] or a negative value
    decides, and one of the three always does. *)
Lemma ohms_law_after_count v i r :
  provided v i r = 2 ->
  ohms_law v i r =
    if is_None i then Raise TypeError
    else if negative i then Raise (NegativeValue Current)
    else if is_None v then Raise TypeError
    else if negative v then Raise (NegativeValue Voltage)
    else Raise TypeError.
Proof.
  intros H. rewrite (ohms_law_count_passes _ _ _ H). unfold check_negative.
  destruct v, i, r; cbn in H; try discriminate; cbn;
    repeat (match goal with
            | |- context [if ?b then _ else _] => destruct b; cbn
            end);
    reflexivity.
Qed.

(** Hence no call returns normally. *)
Lemma ohms_law_always_raises v i r : exists e, ohms_law v i r = Raise e.
Proof.
  destruct (Z.eq_dec (provided v i r) 2) as [H | H].
  - rewrite (ohms_law_after_count _ _ _ H).
    destruct (is_None i), (negative i), (is_None v), (negative v); eauto.
  - rewrite (ohms_law_count_fails _ _ _ H). eauto.
Qed.

Lemma bind_Return_inv {A B : Type} (m : outcome A) (k : A -> outcome B) (b : B) :
  bind m k = Return b -> exists a, m = Return a /\ k a = Return b.
Proof. destruct m as [a | e]; cbn; [eauto | discriminate]. Qed.

Lemma calculate_one_absent v i r :
  one_absent v i r -> one_branch_taken v i r.
Proof.
  unfold one_branch_taken.
  intros [(-> & Hv & Hr) | [(-> & Hi & Hr) | (-> & Hv & Hi)]].
  - left. split; reflexivity.
  - right; left. destruct i; [congruence | |]; repeat split; congruence.
  - right; right. destruct i; [congruence | |];
      (destruct v; [congruence | |]); repeat split; congruence.
Qed.

Lemma calculate_one_key v i r x :
  one_absent v i r -> calculate v i r = Return x -> one_key x.
Proof.
  intros H E.
  destruct (calculate_one_absent v i r H)
    as [(_ & C) | [(_ & _ & C) | (_ & _ & _ & C)]];
    rewrite C in E; apply bind_Return_inv in E as (y & _ & E);
    injection E as <-; eexists _, y; (split; [reflexivity | cbn; auto]).
Qed.

Lemma one_key_not_None : ~ one_key RetNone.
Proof. intros (k & y & E & _). discriminate. Qed.

(** ** The properties of the specification *)

(** C1: with exactly two parameters provided and neither of them negative,
    the specification expects the one-entry mapping of the missing field.
    The function instead raises [TypeError] on every such input: one of the
    three comparisons with zero meets the absent parameter before the
    computation is reached. *)
Theorem two_nonnegative_arguments_raise v i r :
  provided v i r = 2 ->
  negative v = false -> negative i = false -> negative r = false ->
  ohms_law v i r = Raise TypeError.
Proof.
  intros H Hv Hi _. rewrite (ohms_law_after_count _ _ _ H), Hv, Hi.
  destruct (is_None i), (is_None v); reflexivity.
Qed.

Lemma two_nonnegative_arguments_raise_witness :
  provided PyNone (PyInt 2) (PyInt 4) = 2 /\
  ohms_law PyNone (PyInt 2) (PyInt 4) = Raise TypeError.
Proof.
  split; [reflexivity |].
  apply (two_nonnegative_arguments_raise PyNone (PyInt 2) (PyInt 4)); reflexivity.
Defined.

(** C2: the specification wants the negativity check to skip the absent
    parameter.  The block of lines 60-65 compares all three parameters: with
    exactly two provided it never completes, an absent current raises
    [TypeError] at the first comparison whatever the other two are, and so
    does any input without a negative value. *)
Theorem absent_parameter_is_compared v i r :
  provided v i r = 2 ->
  check_negative v i r <> Return tt /\
  (i = PyNone -> check_negative v i r = Raise TypeError) /\
  (negative v = false -> negative i = false -> negative r = false ->
   check_negative v i r = Raise TypeError).
Proof.
  intros H. apply provided_two_one_absent in H. repeat split.
  - intros E. apply check_negative_Return_inv in E. unfold one_absent in H.
    intuition congruence.
  - intros ->. reflexivity.
  - intros Hv Hi Hr. unfold check_negative.
    destruct H as [(-> & _ & _) | [(-> & Ni & _) | (-> & Nv & Ni)]].
    + reflexivity.
    + rewrite (lt0_provided _ Ni), Hi. reflexivity.
    + rewrite (lt0_provided _ Ni), Hi. cbn.
      rewrite (lt0_provided _ Nv), Hv. reflexivity.
Qed.

Lemma absent_parameter_is_compared_witness :
  provided (PyInt (-9)) PyNone (PyInt 3) = 2 /\
  check_negative (PyInt (-9)) PyNone (PyInt 3) = Raise TypeError.
Proof.
  split; [reflexivity |].
  destruct (absent_parameter_is_compared (PyInt (-9)) PyNone (PyInt 3) eq_refl)
    as (_ & H & _).
  exact (H eq_refl).
Defined.

(** C3: when the number of provided parameters is not two, the function
    raises the [ValueError] of the count check. *)
Theorem wrong_argument_count_raises v i r :
  provided v i r <> 2 -> ohms_law v i r = Raise InvalidArgumentCount.
Proof. apply ohms_law_count_fails. Qed.

Lemma wrong_argument_count_raises_witness :
  provided (PyInt 9) (PyInt 3) (PyInt 3) <> 2 /\
  ohms_law (PyInt 9) (PyInt 3) (PyInt 3) = Raise InvalidArgumentCount /\
  ohms_law (PyInt 9) PyNone PyNone = Raise InvalidArgumentCount.
Proof.
  split; [discriminate |]. split.
  - apply (wrong_argument_count_raises (PyInt 9) (PyInt 3) (PyInt 3)). discriminate.
  - apply (wrong_argument_count_raises (PyInt 9) PyNone PyNone). discriminate.
Defined.

(** C4: a negative provided parameter should give the [NegativeValue] error
    of the first negative field in the order current, voltage, resistance.
    The function never raises the resistance error, and a negative value
    that comes after the absent parameter in that order gives [TypeError]. *)
Theorem negative_after_absent_parameter :
  (forall v i r, ohms_law v i r <> Raise (NegativeValue Resistance)) /\
  ohms_law PyNone (PyInt 2) (PyInt (-4)) = Raise TypeError /\
  ohms_law (PyInt (-5)) PyNone (PyInt 3) = Raise TypeError.
Proof.
  split; [| split; reflexivity].
  intros v i r. destruct (Z.eq_dec (provided v i r) 2) as [H | H].
  - rewrite (ohms_law_after_count _ _ _ H).
    destruct (is_None i), (negative i), (is_None v), (negative v); discriminate.
  - rewrite (ohms_law_count_fails _ _ _ H). discriminate.
Qed.

(** Where the order of the checks does work: a negative value that is met
    before the absent parameter. *)
Lemma negative_current_raises v i r :
  provided v i r = 2 -> negative i = true ->
  ohms_law v i r = Raise (NegativeValue Current).
Proof.
  intros H Hi. rewrite (ohms_law_after_count _ _ _ H), Hi.
  destruct i; [discriminate | reflexivity | reflexivity].
Qed.

Lemma negative_voltage_raises v i r :
  provided v i r = 2 -> i <> PyNone -> negative i = false -> negative v = true ->
  ohms_law v i r = Raise (NegativeValue Voltage).
Proof.
  intros H Ni Hi Hv. rewrite (ohms_law_after_count _ _ _ H), Hi, Hv.
  destruct i; [congruence | |]; (destruct v; [discriminate | reflexivity | reflexivity]).
Qed.

(** C5: a zero denominator should surface as a division-by-zero error and
    the product with a zero resistance should be returned.  The computation
    block does both, but the function raises [TypeError] before reaching
    it. *)
Theorem zero_denominator_not_reached :
  ohms_law (PyInt 5) (PyInt 0) PyNone = Raise TypeError /\
  ohms_law (PyInt 9) PyNone (PyInt 0) = Raise TypeError /\
  ohms_law PyNone (PyInt 2) (PyInt 0) = Raise TypeError /\
  calculate (PyInt 5) (PyInt 0) PyNone = Raise ZeroDivisionError /\
  calculate (PyInt 9) PyNone (PyInt 0) = Raise ZeroDivisionError /\
  calculate PyNone (PyInt 2) (PyInt 0) = Return (RetDict {[ "voltage" := PyInt 0 ]}).
Proof. repeat split; reflexivity. Qed.

(** C6: the count check comes first: when the count is wrong and a provided
    parameter is negative as well, the error is the one of the count check
    and not a [NegativeValue]. *)
Theorem count_check_precedes_negativity v i r :
  provided v i r <> 2 ->
  negative i = true \/ negative v = true \/ negative r = true ->
  ohms_law v i r = Raise InvalidArgumentCount /\
  forall f, ohms_law v i r <> Raise (NegativeValue f).
Proof.
  intros H _. rewrite (ohms_law_count_fails _ _ _ H). split; [reflexivity |].
  intros f E. injection E as E. exact (error_names_distinct f E).
Qed.

Lemma count_check_precedes_negativity_witness :
  provided (PyInt 9) (PyInt 3) (PyInt (-3)) <> 2 /\
  negative (PyInt (-3)) = true /\
  ohms_law (PyInt 9) (PyInt 3) (PyInt (-3)) = Raise InvalidArgumentCount.
Proof.
  split; [discriminate |]. split; [reflexivity |].
  apply (count_check_precedes_negativity (PyInt 9) (PyInt 3) (PyInt (-3)));
    [discriminate | right; right; reflexivity].
Defined.

(** C7: the round trip calls the function with the voltage unknown, a
    positive current [i] and the resistance [v / i].  The call does not
    return the voltage: it raises [TypeError], whatever [v] is. *)
Theorem round_trip_raises (v i : float) :
  PrimFloat.ltb PrimFloat.zero i = true ->
  ohms_law PyNone (PyFloat i) (PyFloat (PrimFloat.div v i)) = Raise TypeError.
Proof.
  intros Hi. rewrite ohms_law_after_count by reflexivity.
  cbn. rewrite (float_positive_not_negative _ Hi). reflexivity.
Qed.

Lemma round_trip_raises_witness :
  PrimFloat.ltb PrimFloat.zero 2%float = true /\
  ohms_law PyNone (PyFloat 2%float) (PyFloat (PrimFloat.div 8%float 2%float))
    = Raise TypeError.
Proof.
  split; [reflexivity |].
  apply (round_trip_raises 8%float 2%float). reflexivity.
Defined.






(** C9: the three error conditions should reach the caller as three
    distinguishable errors.  A negative resistance and a zero current both
    come out as the same [TypeError], which is none of the three. *)
Theorem negative_and_zero_divisor_same_error :
  ohms_law PyNone (PyInt 2) (PyInt (-4)) = Raise TypeError /\
  ohms_law (PyInt 5) (PyInt 0) PyNone = Raise TypeError /\
  TypeError <> InvalidArgumentCount /\
  (forall f, TypeError <> NegativeValue f) /\
  TypeError <> ZeroDivisionError.
Proof.
  repeat split; try reflexivity; try discriminate.
  intros f; destruct f; discriminate.
Qed.

(** C10: for an input that passes the count check, exactly one parameter is
    absent and one computing branch should be taken, giving a one-key
    dictionary.  Exactly one parameter is absent indeed, but the negativity
    block raises on every such input, so the function stops before the
    computation block and takes no branch. *)
Theorem no_branch_is_reached v i r :
  provided v i r = 2 ->
  one_absent v i r /\
  exists e, check_negative v i r = Raise e /\ ohms_law v i r = Raise e.
Proof.
  intros H. pose proof (proj1 (provided_two_one_absent v i r) H) as A.
  split; [exact A |].
  rewrite (ohms_law_count_passes _ _ _ H).
  destruct (check_negative v i r) as [[] | e] eqn:E.
  - apply check_negative_Return_inv in E. unfold one_absent in A.
    intuition congruence.
  - exists e. split; reflexivity.
Qed.

Lemma no_branch_is_reached_witness :
  provided (PyInt 12) (PyInt 3) PyNone = 2 /\
  ohms_law (PyInt 12) (PyInt 3) PyNone = Raise TypeError /\
  calculate (PyInt 12) (PyInt 3) PyNone
    = Return (RetDict {[ "resistance" := PyFloat 4%float ]}).
Proof.
  split; [reflexivity |].
  destruct (no_branch_is_reached (PyInt 12) (PyInt 3) PyNone eq_refl)
    as (_ & e & C & O).
  split; [| reflexivity].
  cbn in C. injection C as <-. exact O.
Defined.

(** ** Further properties of the function *)

(** *** The validation *)

Lemma ohms_law_error_cases v i r :
  ohms_law v i r = Raise InvalidArgumentCount \/
  ohms_law v i r = Raise (NegativeValue Current) \/
  ohms_law v i r = Raise (NegativeValue Voltage) \/
  ohms_law v i r = Raise TypeError.
Proof.
  destruct (Z.eq_dec (provided v i r) 2) as [H | H].
  - rewrite (ohms_law_after_count _ _ _ H).
    destruct (is_None i), (negative i), (is_None v), (negative v); auto.
  - left. apply ohms_law_count_fails, H.
Qed.

(** X1: whatever the three arguments are, the function raises, and the error
    is the count error, the current or the voltage error, or [TypeError]. *)
Theorem ohms_law_outcomes v i r :
  ohms_law v i r = Raise InvalidArgumentCount \/
  ohms_law v i r = Raise (NegativeValue Current) \/
  ohms_law v i r = Raise (NegativeValue Voltage) \/
  ohms_law v i r = Raise TypeError.
Proof. apply ohms_law_error_cases. Qed.

(** X2: the count error is raised exactly when the number of provided
    parameters is not two. *)
Theorem count_error_iff v i r :
  ohms_law v i r = Raise InvalidArgumentCount <-> provided v i r <> 2.
Proof.
  split; [| apply ohms_law_count_fails].
  intros E H. rewrite (ohms_law_after_count _ _ _ H) in E.
  destruct (is_None i), (negative i), (is_None v), (negative v); discriminate.
Qed.

Lemma count_error_iff_witness :
  provided (PyInt 9) (PyInt (-3)) PyNone = 2 /\
  ohms_law (PyInt 9) (PyInt (-3)) PyNone <> Raise InvalidArgumentCount.
Proof.
  split; [reflexivity |].
  intros E. apply (count_error_iff (PyInt 9) (PyInt (-3)) PyNone) in E.
  apply E. reflexivity.
Defined.

(** X3: a negative-value error is raised exactly when two parameters are
    provided and the named field is the first negative one that is compared
    before the absent one: a negative current always, a negative voltage
    when the current is provided and not negative, the resistance never. *)
Theorem negative_error_iff v i r f :
  ohms_law v i r = Raise (NegativeValue f) <->
  provided v i r = 2 /\
  match f with
  | Current => negative i = true
  | Voltage => i <> PyNone /\ negative i = false /\ negative v = true
  | Resistance => False
  end.
Proof.
  split.
  - intros E. destruct (Z.eq_dec (provided v i r) 2) as [H | H].
    + split; [exact H |]. rewrite (ohms_law_after_count _ _ _ H) in E.
      destruct i, f; cbn in E |- *;
        repeat (match type of E with
                | context [if ?b then _ else _] => destruct b eqn:?
                end);
        try discriminate; repeat split; congruence.
    + rewrite (ohms_law_count_fails _ _ _ H) in E.
      destruct f; discriminate.
  - intros [H F]. destruct f.
    + apply negative_current_raises; assumption.
    + destruct F as (Ni & Hi & Hv). apply negative_voltage_raises; assumption.
    + contradiction.
Qed.

Lemma negative_error_iff_witness :
  provided (PyFloat (-5)%float) (PyInt 2) PyNone = 2 /\
  ohms_law (PyFloat (-5)%float) (PyInt 2) PyNone = Raise (NegativeValue Voltage).
Proof.
  split; [reflexivity |].
  apply (negative_error_iff (PyFloat (-5)%float) (PyInt 2) PyNone Voltage).
  split; [reflexivity |]. split; [discriminate |]. split; reflexivity.
Defined.

(** X4: [TypeError] is raised exactly when two parameters are provided, the
    current is not negative, and the current is the absent parameter or the
    voltage is not negative. *)
Theorem type_error_iff v i r :
  ohms_law v i r = Raise TypeError <->
  provided v i r = 2 /\ negative i = false /\
  (i = PyNone \/ negative v = false).
Proof.
  split.
  - intros E. destruct (Z.eq_dec (provided v i r) 2) as [H | H].
    + split; [exact H |]. rewrite (ohms_law_after_count _ _ _ H) in E.
      destruct i; cbn in E |- *;
        repeat (match type of E with
                | context [if ?b then _ else _] => destruct b eqn:?
                end);
        try discriminate; auto.
      all: destruct v; cbn in *; auto; congruence.
    + rewrite (ohms_law_count_fails _ _ _ H) in E. discriminate.
  - intros (H & Hi & F). rewrite (ohms_law_after_count _ _ _ H), Hi.
    destruct F as [-> | Hv]; [reflexivity |]. rewrite Hv.
    destruct (is_None i), (is_None v); reflexivity.
Qed.

Lemma type_error_iff_witness :
  provided (PyInt 12) (PyInt 3) PyNone = 2 /\
  ohms_law (PyInt 12) (PyInt 3) PyNone = Raise TypeError.
Proof.
  split; [reflexivity |].
  apply (type_error_iff (PyInt 12) (PyInt 3) PyNone).
  split; [reflexivity |]. split; [reflexivity |]. right; reflexivity.
Defined.

(** X13: the negativity block of lines 59-65 completes exactly when all
    three parameters are provided and none is negative, which the count
    check excludes. *)
Theorem check_negative_passes_iff v i r :
  check_negative v i r = Return tt <->
  (v <> PyNone /\ i <> PyNone /\ r <> PyNone) /\
  negative v = false /\ negative i = false /\ negative r = false.
Proof.
  split.
  - intros E. pose proof (check_negative_Return_inv _ _ _ E) as (Nv & Ni & Nr).
    split; [auto |]. unfold check_negative in E.
    rewrite (lt0_provided _ Ni), (lt0_provided _ Nv), (lt0_provided _ Nr) in E.
    cbn in E.
    destruct (negative i); [discriminate |].
    destruct (negative v); [discriminate |].
    destruct (negative r); [discriminate |]. auto.
  - intros ((Nv & Ni & Nr) & Hv & Hi & Hr). unfold check_negative.
    rewrite (lt0_provided _ Ni), (lt0_provided _ Nv), (lt0_provided _ Nr).
    rewrite Hv, Hi, Hr. reflexivity.
Qed.

Lemma check_negative_passes_iff_witness :
  check_negative (PyInt 9) (PyInt 3) (PyFloat 3%float) = Return tt /\
  check_negative (PyInt 9) (PyInt 3) PyNone <> Return tt.
Proof.
  split.
  - apply (check_negative_passes_iff (PyInt 9) (PyInt 3) (PyFloat 3%float)).
    repeat split; discriminate || reflexivity.
  - intros E. apply (check_negative_passes_iff (PyInt 9) (PyInt 3) PyNone) in E.
    destruct E as ((_ & _ & N) & _). apply N. reflexivity.
Defined.

(** *** The computation block *)

Lemma rounded_Raise_inv sf e : rounded sf = Raise e -> e = OverflowError.
Proof. destruct sf; cbn; congruence. Qed.

Lemma as_double_Raise_inv x e :
  x <> PyNone -> as_double x = Raise e -> e = OverflowError.
Proof.
  destruct x; cbn; [congruence | | discriminate].
  intros _. apply rounded_Raise_inv.
Qed.

Lemma truediv_Return_inv x y c :
  truediv x y = Return c ->
  x <> PyNone /\ y <> PyNone /\ exists f, c = PyFloat f.
Proof.
  destruct x, y; cbn; try discriminate.
  - destruct (z0 =? 0); [discriminate |].
    destruct (rounded _); cbn; [| discriminate].
    intros [= <-]. repeat split; try discriminate; eauto.
  - destruct (rounded _); cbn; [| discriminate].
    destruct (PrimFloat.eqb _ _); [discriminate |].
    intros [= <-]. repeat split; try discriminate; eauto.
  - destruct (rounded _); cbn; [| discriminate].
    destruct (PrimFloat.eqb _ _); [discriminate |].
    intros [= <-]. repeat split; try discriminate; eauto.
  - destruct (PrimFloat.eqb _ _); [discriminate |].
    intros [= <-]. repeat split; try discriminate; eauto.
Qed.

Lemma mul_Return_inv x y c :
  mul x y = Return c -> x <> PyNone /\ y <> PyNone /\ c <> PyNone.
Proof.
  destruct x, y; cbn; try discriminate.
  - intros [= <-]. repeat split; discriminate.
  - destruct (rounded _); cbn; [| discriminate].
    intros [= <-]. repeat split; discriminate.
  - destruct (rounded _); cbn; [| discriminate].
    intros [= <-]. repeat split; discriminate.
  - intros [= <-]. repeat split; discriminate.
Qed.

(** X5: the trailing [else] of the computation block is the branch of three
    provided parameters: the block returns [None] exactly when no parameter
    is [None] (the source comment reads "All parameters are None"). *)
Theorem else_branch_iff_all_provided v i r :
  calculate v i r = Return RetNone <->
  v <> PyNone /\ i <> PyNone /\ r <> PyNone.
Proof.
  split.
  - intros E. unfold calculate in E.
    destruct v, i, r; cbn [is_None is_not_None negb] in E;
      try (repeat split; discriminate);
      apply bind_Return_inv in E as (c & _ & E); discriminate.
  - intros (Hv & Hi & Hr). destruct v, i, r; try congruence; reflexivity.
Qed.

Lemma else_branch_iff_all_provided_witness :
  calculate (PyInt 9) (PyInt 3) (PyFloat 3%float) = Return RetNone /\
  calculate PyNone PyNone PyNone <> Return RetNone.
Proof.
  split.
  - apply (else_branch_iff_all_provided (PyInt 9) (PyInt 3) (PyFloat 3%float)).
    repeat split; discriminate.
  - intros E.
    apply (else_branch_iff_all_provided PyNone PyNone PyNone) in E.
    destruct E as (E & _). apply E. reflexivity.
Defined.

(** X6: with fewer than two parameters provided, the computation block
    raises [TypeError]: the branch of the first absent parameter computes
    with another absent one. *)
Theorem calculate_two_absent_raises v i r :
  provided v i r < 2 -> calculate v i r = Raise TypeError.
Proof. intros H. destruct v, i, r; cbn in H; try lia; reflexivity. Qed.

Lemma calculate_two_absent_raises_witness :
  provided (PyInt 9) PyNone PyNone < 2 /\
  calculate (PyInt 9) PyNone PyNone = Raise TypeError /\
  calculate PyNone PyNone PyNone = Raise TypeError.
Proof.
  split; [reflexivity |]. split.
  - apply (calculate_two_absent_raises (PyInt 9) PyNone PyNone). reflexivity.
  - apply (calculate_two_absent_raises PyNone PyNone PyNone). reflexivity.
Defined.

(** X7: when the computation block returns a dictionary, exactly one
    parameter is absent, the single key is the name of that parameter and
    the value is a number; a computed current or resistance is a float. *)
Theorem calculate_dict_names_absent v i r d :
  calculate v i r = Return (RetDict d) ->
  one_absent v i r /\
  ((i = PyNone /\ exists f, d = {[ "current" := PyFloat f ]}) \/
   (v = PyNone /\ exists y, y <> PyNone /\ d = {[ "voltage" := y ]}) \/
   (r = PyNone /\ exists f, d = {[ "resistance" := PyFloat f ]})).
Proof.
  unfold calculate, one_absent. intros E.
  destruct i as [| a | f].
  { apply bind_Return_inv in E as (c & T & [= <-]).
    apply truediv_Return_inv in T as (Hv & Hr & f & ->).
    split; [left; auto | left; eauto]. }
  all: destruct v as [| b | g].
  all: cbn [is_None is_not_None negb] in E.
  1, 4: apply bind_Return_inv in E as (c & T & [= <-]);
    apply mul_Return_inv in T as (Hi & Hr & Hc);
    (split; [right; left; auto | right; left; eauto]).
  all: destruct r as [| c | h]; try discriminate.
  all: apply bind_Return_inv in E as (c & T & [= <-]);
    apply truediv_Return_inv in T as (Hv & Hi & q & ->);
    (split; [right; right; auto | right; right; eauto]).
Qed.

Lemma calculate_dict_names_absent_witness :
  one_absent (PyInt 12) (PyInt 3) PyNone.
Proof.
  apply (calculate_dict_names_absent (PyInt 12) (PyInt 3) PyNone
           {[ "resistance" := PyFloat 4%float ]}).
  reflexivity.
Defined.

Lemma truediv_zero_divisor v d :
  v <> PyNone -> is_zero d = true ->
  truediv v d = Raise (zero_divisor_error v d).
Proof.
  intros Hv Hd. unfold zero_divisor_error.
  destruct v as [| a | f]; [congruence | |]; destruct d as [| b | g];
    try discriminate; cbn in Hd; cbn [too_large is_float andb].
  - cbn. rewrite Hd. destruct (binary_normalize _ _ _ _ _); reflexivity.
  - rewrite andb_true_r. unfold truediv, as_double, rounded.
    destruct (binary_normalize prec emax a 0 false);
      cbn [Py.bind]; try rewrite Hd; reflexivity.
  - apply Z.eqb_eq in Hd as ->. reflexivity.
  - cbn. rewrite Hd. reflexivity.
Qed.

(** X8: a zero divisor never yields a value.  With the resistance absent and
    a zero current, or the current absent and a zero resistance, the block
    raises [ZeroDivisionError]; the one exception is an [int] voltage too
    large for a float over a float zero, which raises [OverflowError]. *)
Theorem calculate_zero_divisor v d :
  v <> PyNone -> is_zero d = true ->
  calculate v d PyNone = Raise (zero_divisor_error v d) /\
  calculate v PyNone d = Raise (zero_divisor_error v d).
Proof.
  intros Hv Hd. pose proof (truediv_zero_divisor v d Hv Hd) as T.
  unfold calculate.
  destruct v; [congruence | |]; (destruct d; [discriminate | |]);
    cbn [is_None is_not_None negb]; rewrite T; split; reflexivity.
Qed.

Lemma calculate_zero_divisor_witness :
  calculate (PyInt 5) (PyFloat (-0)%float) PyNone = Raise ZeroDivisionError /\
  calculate (PyFloat 5%float) (PyInt 0) PyNone = Raise ZeroDivisionError /\
  calculate (PyInt (2 ^ 1024 - 2 ^ 970 - 1)) (PyFloat 0%float) PyNone
    = Raise ZeroDivisionError /\
  calculate (PyInt (2 ^ 1024 - 2 ^ 970)) (PyFloat 0%float) PyNone
    = Raise OverflowError /\
  calculate (PyInt (2 ^ 1024 - 2 ^ 970)) (PyInt 0) PyNone
    = Raise ZeroDivisionError.
Proof.
  assert (N : forall z, PyInt z <> PyNone) by discriminate.
  assert (F : forall f, PyFloat f <> PyNone) by discriminate.
  split; [| split; [| split; [| split]]].
  - exact (proj1 (calculate_zero_divisor (PyInt 5) (PyFloat (-0)%float)
                    (N _) eq_refl)).
  - exact (proj1 (calculate_zero_divisor (PyFloat 5%float) (PyInt 0)
                    (F _) eq_refl)).
  - exact (proj1 (calculate_zero_divisor (PyInt (2 ^ 1024 - 2 ^ 970 - 1))
                    (PyFloat 0%float) (N _) eq_refl)).
  - exact (proj1 (calculate_zero_divisor (PyInt (2 ^ 1024 - 2 ^ 970))
                    (PyFloat 0%float) (N _) eq_refl)).
  - exact (proj1 (calculate_zero_divisor (PyInt (2 ^ 1024 - 2 ^ 970))
                    (PyInt 0) (N _) eq_refl)).
Defined.

(** *** The call *)

Lemma kwargs_size (kwargs : gmap string pyval) :
  dom kwargs ⊆ list_to_set parameters ->
  size kwargs =
    (given kwargs "voltage" + given kwargs "current" + given kwargs "resistance")%nat.
Proof.
  intros H.
  assert (O : forall k : string,
             k <> "voltage" -> k <> "current" -> k <> "resistance" ->
             kwargs !! k = None).
  { intros k N1 N2 N3. apply not_elem_of_dom. intros D. apply H in D.
    unfold parameters in D. apply elem_of_list_to_set in D.
    repeat (apply elem_of_cons in D as [-> | D]; [congruence |]).
    by apply elem_of_nil in D. }
  set (m := (match kwargs !! "voltage" with
             | Some x => <[ "voltage" := x ]>
             | None => fun m => m
             end)
            ((match kwargs !! "current" with
              | Some x => <[ "current" := x ]>
              | None => fun m => m
              end)
             ((match kwargs !! "resistance" with
               | Some x => <[ "resistance" := x ]>
               | None => fun m => m
               end) (∅ : gmap string pyval)))).
  assert (E : kwargs = m).
  { apply map_eq. intros k. subst m.
    destruct (decide (k = "voltage")) as [-> | N1].
    2: destruct (decide (k = "current")) as [-> | N2].
    3: destruct (decide (k = "resistance")) as [-> | N3].
    4: rewrite (O k N1 N2 N3).
    all: destruct (kwargs !! "voltage"), (kwargs !! "current"),
           (kwargs !! "resistance"); simplify_map_eq; done. }
  unfold given. rewrite E at 1. subst m.
  destruct (kwargs !! "voltage"), (kwargs !! "current"),
    (kwargs !! "resistance");
    repeat (rewrite map_size_insert_None by (simplify_map_eq; done));
    rewrite map_size_empty; reflexivity.
Qed.

Lemma bind_parameter_given args kwargs k name x :
  bind_parameter args kwargs k name = Return x ->
  ((k < length args)%nat /\ given kwargs name = 0%nat) \/
  ((length args <= k)%nat /\ given kwargs name = 1%nat).
Proof.
  unfold bind_parameter, given.
  destruct (args !! k) eqn:A, (kwargs !! name); try discriminate; intros _.
  - left. split; [eapply lookup_lt_Some, A | reflexivity].
  - right. split; [eapply lookup_ge_None, A | reflexivity].
Qed.

Lemma bind_parameter_Raise_inv args kwargs k name e :
  bind_parameter args kwargs k name = Raise e -> e = TypeError.
Proof.
  unfold bind_parameter.
  destruct (args !! k), (kwargs !! name); congruence.
Qed.

Lemma ohms_law_call_bound args kwargs :
  ohms_law_call args kwargs <> Raise TypeError ->
  exists v i r,
    (length args + size kwargs = 3)%nat /\
    bind_parameter args kwargs 0 "voltage" = Return v /\
    bind_parameter args kwargs 1 "current" = Return i /\
    bind_parameter args kwargs 2 "resistance" = Return r /\
    ohms_law_call args kwargs = ohms_law v i r.
Proof.
  unfold ohms_law_call. intros N.
  destruct (Nat.ltb_spec (length parameters) (length args)) as [L | L];
    [congruence |].
  case_bool_decide as D; cbn [negb] in *; [| congruence].
  destruct (bind_parameter args kwargs 0 "voltage") as [v | e] eqn:Bv;
    [| apply bind_parameter_Raise_inv in Bv as ->; contradiction].
  destruct (bind_parameter args kwargs 1 "current") as [i | e] eqn:Bi;
    [| apply bind_parameter_Raise_inv in Bi as ->; contradiction].
  destruct (bind_parameter args kwargs 2 "resistance") as [r | e] eqn:Br;
    [| apply bind_parameter_Raise_inv in Br as ->; contradiction].
  exists v, i, r. repeat split; try reflexivity.
  rewrite (kwargs_size _ D).
  apply bind_parameter_given in Bv, Bi, Br. cbn in L. lia.
Qed.

(** X9: a call that does not pass three arguments in all, counting
    positional and keyword arguments, raises [TypeError] before the body
    runs: no parameter has a default, so the unknown cannot be left out. *)
Theorem call_needs_three_arguments args kwargs :
  (length args + size kwargs <> 3)%nat ->
  ohms_law_call args kwargs = Raise TypeError.
Proof.
  intros H.
  destruct (ohms_law_call args kwargs) as [x | [msg | | |]] eqn:E;
    try reflexivity;
    (destruct (ohms_law_call_bound args kwargs) as (v & i & r & T & _);
     [rewrite E; discriminate | contradiction]).
Qed.

Lemma call_needs_three_arguments_witness :
  ohms_law_call [] {[ "current" := PyInt 2; "resistance" := PyInt 4 ]}
    = Raise TypeError.
Proof.
  apply call_needs_three_arguments. vm_compute. discriminate.
Defined.

(** X10: the three arguments reach the body by position, by keyword or by
    a mix of both, with the same result. *)
Theorem call_by_position_or_keyword v i r :
  ohms_law_call [v; i; r] ∅ = ohms_law v i r /\
  ohms_law_call [v; i] {[ "resistance" := r ]} = ohms_law v i r /\
  ohms_law_call [v] {[ "current" := i; "resistance" := r ]} = ohms_law v i r /\
  ohms_law_call [] {[ "voltage" := v; "current" := i; "resistance" := r ]}
    = ohms_law v i r.
Proof. repeat split; vm_compute; reflexivity. Qed.

(** X11: no call returns a value, however the arguments are passed: the
    outcome is [TypeError], the count error, or the current or voltage
    error. *)
Theorem call_never_returns args kwargs :
  ohms_law_call args kwargs = Raise TypeError \/
  ohms_law_call args kwargs = Raise InvalidArgumentCount \/
  ohms_law_call args kwargs = Raise (NegativeValue Current) \/
  ohms_law_call args kwargs = Raise (NegativeValue Voltage).
Proof.
  destruct (ohms_law_call args kwargs) as [x | [msg | | |]] eqn:E; auto;
    (destruct (ohms_law_call_bound args kwargs)
       as (v & i & r & _ & _ & _ & _ & C); [rewrite E; discriminate |]);
    rewrite E in C; rewrite C;
    destruct (ohms_law_error_cases v i r) as [O | [O | [O | O]]]; auto.
Qed.

(** *** Signs of the computed values *)

Lemma float_not_negative (f : float) :
  PrimFloat.ltb f PrimFloat.zero = false <-> SF_not_negative (Prim2SF f).
Proof. unfold SF_not_negative. rewrite ltb_spec. reflexivity. Qed.

Lemma binary_round_aux_not_negative m e l :
  SF_not_negative (binary_round_aux prec emax false m e l).
Proof.
  unfold binary_round_aux.
  destruct (shr_fexp prec emax m e l) as [mrs' e'].
  destruct (shr_fexp prec emax _ e' loc_Exact) as [mrs'' e''].
  destruct (shr_m mrs''); [reflexivity | | reflexivity].
  destruct (Z.leb e'' (emax - prec)); reflexivity.
Qed.

Lemma binary_round_not_negative m e :
  SF_not_negative (binary_round prec emax false m e).
Proof.
  unfold binary_round. destruct (shl_align m e _) as [mz ez].
  apply binary_round_aux_not_negative.
Qed.

Lemma binary_normalize_not_negative z e :
  0 <= z -> SF_not_negative (binary_normalize prec emax z e false).
Proof.
  destruct z; cbn; [reflexivity | intros _ | lia].
  apply binary_round_not_negative.
Qed.

Lemma SFldexp_not_negative x e :
  SF_not_negative x -> SF_not_negative (SFldexp prec emax x e).
Proof.
  destruct x as [s | s | | s m ex]; cbn; auto.
  destruct s; [discriminate | intros _]. apply binary_round_not_negative.
Qed.

Lemma SF2Prim_not_negative x :
  SF_not_negative x -> PrimFloat.ltb (SF2Prim x) PrimFloat.zero = false.
Proof.
  destruct x as [s | s | | s m e]; try (destruct s; reflexivity || discriminate).
  - reflexivity.
  - destruct s; [discriminate | intros _]. cbn [SF2Prim].
    apply float_not_negative.
    rewrite FloatLemmas.Z_ldexp_spec. apply SFldexp_not_negative.
    rewrite of_uint63_spec. apply binary_normalize_not_negative.
    apply Uint63.to_Z_bounded.
Qed.

Lemma SFmul_not_negative x y :
  SF_not_negative x -> SF_not_negative y ->
  SF_not_negative (SFmul prec emax x y).
Proof.
  destruct x as [sx | sx | | sx mx ex], y as [sy | sy | | sy my ey];
    try destruct sx; try destruct sy; try discriminate; try reflexivity.
  intros _ _. apply binary_round_aux_not_negative.
Qed.

Lemma SFdiv_not_negative x y :
  SF_not_negative x -> SF_not_negative y ->
  SFeqb y (S754_zero false) = false ->
  SF_not_negative (SFdiv prec emax x y).
Proof.
  destruct x as [sx | sx | | sx mx ex], y as [sy | sy | | sy my ey];
    try destruct sx; try destruct sy; try discriminate; try reflexivity.
  intros _ _ _. cbn [SFdiv xorb].
  destruct (SFdiv_core_binary prec emax _ ex _ ey) as [[mz ez] lz].
  apply binary_round_aux_not_negative.
Qed.

Lemma rounded_not_negative sf f :
  SF_not_negative sf -> rounded sf = Return f ->
  PrimFloat.ltb f PrimFloat.zero = false.
Proof.
  intros H E. assert (f = SF2Prim sf) as ->.
  { destruct sf; unfold rounded in E; congruence. }
  apply SF2Prim_not_negative, H.
Qed.

Lemma int_SF_not_negative z : 0 <= z -> SF_not_negative (int_SF z).
Proof. destruct z; cbn; [reflexivity | reflexivity | lia]. Qed.

Lemma as_double_not_negative x f :
  negative x = false -> as_double x = Return f ->
  PrimFloat.ltb f PrimFloat.zero = false.
Proof.
  destruct x as [| z | g]; cbn; [discriminate | | intros H [= <-]; exact H].
  intros H. apply rounded_not_negative, binary_normalize_not_negative.
  apply Z.ltb_ge, H.
Qed.

Lemma float_mul_not_negative a b :
  PrimFloat.ltb a PrimFloat.zero = false ->
  PrimFloat.ltb b PrimFloat.zero = false ->
  PrimFloat.ltb (PrimFloat.mul a b) PrimFloat.zero = false.
Proof.
  rewrite !float_not_negative, mul_spec. apply SFmul_not_negative.
Qed.

Lemma float_div_not_negative a b :
  PrimFloat.ltb a PrimFloat.zero = false ->
  PrimFloat.ltb b PrimFloat.zero = false ->
  PrimFloat.eqb b PrimFloat.zero = false ->
  PrimFloat.ltb (PrimFloat.div a b) PrimFloat.zero = false.
Proof.
  rewrite !float_not_negative, div_spec, FloatAxioms.eqb_spec.
  apply SFdiv_not_negative.
Qed.

Lemma mul_not_negative x y c :
  negative x = false -> negative y = false ->
  mul x y = Return c -> negative c = false.
Proof.
  intros Hx Hy E.
  destruct x as [| a | f], y as [| b | g]; try discriminate.
  - injection E as <-. cbn in *.
    apply Z.ltb_ge in Hx, Hy. apply Z.ltb_ge. apply Z.mul_nonneg_nonneg; assumption.
  - unfold mul in E. apply bind_Return_inv in E as (p & A & E).
    apply bind_Return_inv in E as (q & B & [= <-]).
    apply float_mul_not_negative;
      [exact (as_double_not_negative _ _ Hx A)
      | exact (as_double_not_negative _ _ Hy B)].
  - unfold mul in E. apply bind_Return_inv in E as (p & A & E).
    apply bind_Return_inv in E as (q & B & [= <-]).
    apply float_mul_not_negative;
      [exact (as_double_not_negative _ _ Hx A)
      | exact (as_double_not_negative _ _ Hy B)].
  - unfold mul in E. apply bind_Return_inv in E as (p & A & E).
    apply bind_Return_inv in E as (q & B & [= <-]).
    apply float_mul_not_negative;
      [exact (as_double_not_negative _ _ Hx A)
      | exact (as_double_not_negative _ _ Hy B)].
Qed.

Lemma truediv_not_negative x y c :
  negative x = false -> negative y = false ->
  truediv x y = Return c -> negative c = false.
Proof.
  intros Hx Hy E.
  destruct x as [| a | f], y as [| b | g]; try discriminate.
  - unfold truediv in E. destruct (Z.eqb_spec b 0) as [| N]; [discriminate |].
    apply bind_Return_inv in E as (q & R & [= <-]).
    cbn in Hx, Hy. apply Z.ltb_ge in Hx, Hy.
    eapply rounded_not_negative; [| exact R].
    apply SFdiv_not_negative; try (apply int_SF_not_negative; assumption).
    destruct b; [congruence | reflexivity | lia].
  - unfold truediv in E. apply bind_Return_inv in E as (p & A & E).
    apply bind_Return_inv in E as (q & B & E).
    destruct (PrimFloat.eqb q PrimFloat.zero) eqn:Nz; [discriminate |].
    injection E as <-.
    apply float_div_not_negative;
      [exact (as_double_not_negative _ _ Hx A)
      | exact (as_double_not_negative _ _ Hy B)
      | exact Nz].
  - unfold truediv in E. apply bind_Return_inv in E as (p & A & E).
    apply bind_Return_inv in E as (q & B & E).
    destruct (PrimFloat.eqb q PrimFloat.zero) eqn:Nz; [discriminate |].
    injection E as <-.
    apply float_div_not_negative;
      [exact (as_double_not_negative _ _ Hx A)
      | exact (as_double_not_negative _ _ Hy B)
      | exact Nz].
  - unfold truediv in E. apply bind_Return_inv in E as (p & A & E).
    apply bind_Return_inv in E as (q & B & E).
    destruct (PrimFloat.eqb q PrimFloat.zero) eqn:Nz; [discriminate |].
    injection E as <-.
    apply float_div_not_negative;
      [exact (as_double_not_negative _ _ Hx A)
      | exact (as_double_not_negative _ _ Hy B)
      | exact Nz].
Qed.

(** X12: the computation block keeps values non-negative: when no parameter
    is negative, the value it returns for the absent one is not negative
    either, so it would pass the function's own negativity check. *)
Theorem calculate_keeps_nonnegative v i r d k y :
  negative v = false -> negative i = false -> negative r = false ->
  calculate v i r = Return (RetDict d) -> d !! k = Some y ->
  negative y = false.
Proof.
  intros Hv Hi Hr E L. unfold calculate in E.
  destruct (is_None i);
    [| destruct (is_None v); [| destruct (is_None r); [| discriminate]]];
    apply bind_Return_inv in E as (c & T & [= <-]);
    apply lookup_singleton_Some in L as [_ <-].
  - eapply truediv_not_negative; [| | exact T]; assumption.
  - eapply mul_not_negative; [| | exact T]; assumption.
  - eapply truediv_not_negative; [| | exact T]; assumption.
Qed.

Lemma calculate_keeps_nonnegative_witness :
  negative (PyFloat 4%float) = false.
Proof.
  apply (calculate_keeps_nonnegative (PyInt 12) (PyInt 3) PyNone
           {[ "resistance" := PyFloat 4%float ]} "resistance");
    reflexivity.
Defined.
